(** * Mini-XML node accessors (mxml-get.c)

    A shallow embedding of the read-side accessors of Mini-XML and the
    proofs of their contract: null-safety, the one-hop "node or first
    child" delegation of the typed getters, the CDATA name convention
    and the whitespace out-parameter of [mxmlGetText]. *)

From Stdlib Require Import ZArith String Ascii PrimFloat.
From stdpp Require Import base decidable option gmap.

Local Open Scope Z_scope.

(** ** Pointers and undefined behaviour *)

(** A C pointer is [NULL] or refers to an object.  What "refers" means is
    chosen per pointee type: nodes are shared and linked in cycles
    (parent/child, next/prev), so a node pointer carries an [address]
    into the node store; a [char *] carries the characters of the
    NUL-terminated string it points to; the [int *] out-parameter of
    [mxmlGetText] carries the caller's cell. *)
Inductive ptr (A : Type) : Type :=
  | NULL
  | Ref (a : A).
Arguments NULL {A}.
Arguments Ref {A} a.

Definition address := positive.

(** [!p] *)
Definition is_null {A} (p : ptr A) : bool :=
  match p with NULL => true | Ref _ => false end.

#[global] Instance ptr_eq_dec {A} `{EqDecision A} : EqDecision (ptr A).
Proof. solve_decision. Defined.

(** The outcome of running a piece of C: a value, or undefined behaviour
    (a read through a null or dangling pointer, pointer arithmetic that
    leaves the object). *)
Inductive result (A : Type) : Type :=
  | Ok (a : A)
  | Undefined.
Arguments Ok {A} a.
Arguments Undefined {A}.

#[global] Instance result_ret : MRet result := fun _ a => Ok a.
#[global] Instance result_bind : MBind result := fun _ _ f r =>
  match r with Ok a => f a | Undefined => Undefined end.
#[global] Instance result_fmap : FMap result := fun _ _ f r =>
  match r with Ok a => Ok (f a) | Undefined => Undefined end.

(** C's short-circuit [||] and [&&] over conditions that read memory: the
    right operand is only evaluated when the left one does not decide. *)
Definition orelse (a b : result bool) : result bool :=
  x ← a; if x : bool then Ok true else b.
Definition andalso (a b : result bool) : result bool :=
  x ← a; if x : bool then b else Ok false.
Infix "|||" := orelse (at level 50, left associativity).
Infix "&&&" := andalso (at level 40, left associativity).

(** ** Declarations of mxml.h and mxml-private.h *)

Module mxml_private.

(** Modelled from the spec: the enumeration [mxml_type_t] is declared in
    mxml.h, which is not among the sources; its enumerators are the ones
    mxml-get.c names, [MXML_TYPE_IGNORE] being the "no node" kind and the
    other six the payload kinds of the data model. *)
Inductive mxml_type_t : Set :=
  | MXML_TYPE_IGNORE
  | MXML_TYPE_ELEMENT
  | MXML_TYPE_INTEGER
  | MXML_TYPE_OPAQUE
  | MXML_TYPE_REAL
  | MXML_TYPE_TEXT
  | MXML_TYPE_CUSTOM.

(** Modelled from the spec: the structures below are declared in
    mxml-private.h, which is not among the sources.  Only the members
    mxml-get.c reads are kept (an element also has attributes, a custom
    value a destructor, a node a reference count). *)
Record _mxml_element_t : Type := {
  name : ptr string                (* char *name *)
}.

(** Modelled from the spec: a text value of mxml-private.h, a word and
    its "preceded by whitespace" flag. *)
Record _mxml_text_t : Type := {
  whitespace : Z;                  (* leading whitespace? as the int read *)
  text_string : ptr string         (* char *string; the member is named
                                      string in C *)
}.

(** Modelled from the spec: a custom value of mxml-private.h, a handle
    the accessors do not interpret. *)
Record _mxml_custom_t : Type := {
  data : ptr address               (* void *data, never dereferenced here *)
}.

(** Modelled from the spec: the [union _mxml_value_u] of mxml-private.h.
    The accessors only read it, so it is given by the value each member
    reads as.  The members of a union share storage, so not every
    combination of readings arises in C; the theorems below hold for all
    of them, whatever the node's [type]. *)
Record _mxml_value_t : Type := {
  element : _mxml_element_t;
  integer : Z;                     (* int integer *)
  opaque : ptr string;             (* char *opaque *)
  real : float;                    (* double real *)
  text : _mxml_text_t;
  custom : _mxml_custom_t
}.

(** Modelled from the spec: the [struct _mxml_node_s] of mxml-private.h,
    a kind, the five links to other nodes, the value and the user data. *)
Record mxml_node_t : Type := {
  type : mxml_type_t;
  next : ptr address;
  prev : ptr address;
  parent : ptr address;
  child : ptr address;
  last_child : ptr address;
  value : _mxml_value_t;
  user_data : ptr address
}.

End mxml_private.
Import mxml_private.

#[global] Instance mxml_type_eq_dec : EqDecision mxml_type_t.
Proof. solve_decision. Defined.

(** The node store: the nodes that are alive, by address. *)
Abbreviation memory := (gmap address mxml_node_t).

(** [*p] for a node pointer: undefined through [NULL] and through an
    address that holds no node. *)
Definition deref (m : memory) (p : ptr address) : result mxml_node_t :=
  match p with
  | NULL => Undefined
  | Ref a => match m !! a with Some n => Ok n | None => Undefined end
  end.

(** ** Strings of <string.h> *)

(** The byte a [char *] reads at the start of a string; the terminating
    NUL once the characters are used up. *)
Definition first_byte (s : string) : Z :=
  match s with
  | EmptyString => 0
  | String c _ => Z.of_N (N_of_ascii c)
  end.

Definition rest (s : string) : string :=
  match s with
  | EmptyString => EmptyString
  | String _ r => r
  end.

(** No character of [p] is NUL: [p] is a C string as it stands. *)
Fixpoint no_nul (p : string) : Prop :=
  match p with
  | EmptyString => True
  | String c r => first_byte (String c r) ≠ 0 ∧ no_nul r
  end.

(** [strncmp] on the characters: at most [n] bytes are compared, as
    unsigned char, and the comparison stops after a NUL. *)
Fixpoint strncmp_chars (s1 s2 : string) (n : nat) {struct n} : Z :=
  match n with
  | O => 0
  | S n' =>
      let c1 := first_byte s1 in
      let c2 := first_byte s2 in
      if bool_decide (c1 = c2)
      then if bool_decide (c1 = 0) then 0
           else strncmp_chars (rest s1) (rest s2) n'
      else c1 - c2
  end.

Definition strncmp (s1 s2 : ptr string) (n : nat) : result Z :=
  match s1, s2 with
  | Ref a, Ref b => Ok (strncmp_chars a b n)
  | _, _ => Undefined
  end.

(** The string [k] characters further on. *)
Fixpoint advance (s : string) (k : nat) {struct k} : option string :=
  match k with
  | O => Some s
  | S k' =>
      match s with
      | EmptyString => None
      | String _ r => advance r k'
      end
  end.

(** [p + k] for a [char *] into a string: defined while it stays within
    the characters and their terminator. *)
Definition ptr_add (p : ptr string) (k : nat) : result (ptr string) :=
  match p with
  | NULL => Undefined
  | Ref s => match advance s k with Some r => Ok (Ref r) | None => Undefined end
  end.

(** ** The [int *] out-parameter *)

(** The caller's variable behind [whitespace]: not yet assigned, or
    holding an int. *)
Inductive int_cell : Set :=
  | Indeterminate
  | Int (v : Z).

(** [if (whitespace) *whitespace = v;] as the cell afterwards. *)
Definition assign_if_set (whitespace : ptr int_cell) (v : Z) : ptr int_cell :=
  match whitespace with
  | NULL => NULL
  | Ref _ => Ref (Int v)
  end.

(** ** mxml-get.c *)

(** 'mxmlGetCDATA()' - Get the value for a CDATA node. *)
Definition mxmlGetCDATA (m : memory) (node : ptr address) : result (ptr string) :=
  c ← Ok (is_null node)
      ||| (n ← deref m node; Ok (bool_decide (n.(type) ≠ MXML_TYPE_ELEMENT)))
      ||| (n ← deref m node;
           r ← strncmp n.(value).(element).(name) (Ref "![CDATA["%string) 8;
           Ok (bool_decide (r ≠ 0)));
  if c : bool then Ok NULL
  else n ← deref m node; ptr_add n.(value).(element).(name) 8.

(** 'mxmlGetCustom()' - Get the value for a custom node. *)
Definition mxmlGetCustom (m : memory) (node : ptr address) : result (ptr address) :=
  if is_null node then Ok NULL
  else
    n ← deref m node;
    if bool_decide (n.(type) = MXML_TYPE_CUSTOM) then Ok n.(value).(custom).(data)
    else
      c ← Ok (bool_decide (n.(type) = MXML_TYPE_ELEMENT))
          &&& Ok (negb (is_null n.(child)))
          &&& (k ← deref m n.(child); Ok (bool_decide (k.(type) = MXML_TYPE_CUSTOM)));
      if c : bool then k ← deref m n.(child); Ok k.(value).(custom).(data)
      else Ok NULL.

(** 'mxmlGetElement()' - Get the name for an element node. *)
Definition mxmlGetElement (m : memory) (node : ptr address) : result (ptr string) :=
  c ← Ok (is_null node)
      ||| (n ← deref m node; Ok (bool_decide (n.(type) ≠ MXML_TYPE_ELEMENT)));
  if c : bool then Ok NULL
  else n ← deref m node; Ok n.(value).(element).(name).

(** 'mxmlGetFirstChild()' - Get the first child of an element node. *)
Definition mxmlGetFirstChild (m : memory) (node : ptr address) : result (ptr address) :=
  c ← Ok (is_null node)
      ||| (n ← deref m node; Ok (bool_decide (n.(type) ≠ MXML_TYPE_ELEMENT)));
  if c : bool then Ok NULL
  else n ← deref m node; Ok n.(child).

(** 'mxmlGetInteger()' - Get the integer value from the specified node or
    its first child. *)
Definition mxmlGetInteger (m : memory) (node : ptr address) : result Z :=
  if is_null node then Ok 0
  else
    n ← deref m node;
    if bool_decide (n.(type) = MXML_TYPE_INTEGER) then Ok n.(value).(integer)
    else
      c ← Ok (bool_decide (n.(type) = MXML_TYPE_ELEMENT))
          &&& Ok (negb (is_null n.(child)))
          &&& (k ← deref m n.(child); Ok (bool_decide (k.(type) = MXML_TYPE_INTEGER)));
      if c : bool then k ← deref m n.(child); Ok k.(value).(integer)
      else Ok 0.

(** 'mxmlGetLastChild()' - Get the last child of an element node. *)
Definition mxmlGetLastChild (m : memory) (node : ptr address) : result (ptr address) :=
  c ← Ok (is_null node)
      ||| (n ← deref m node; Ok (bool_decide (n.(type) ≠ MXML_TYPE_ELEMENT)));
  if c : bool then Ok NULL
  else n ← deref m node; Ok n.(last_child).

(** 'mxmlGetNextSibling()' - Get the next node for the current parent. *)
Definition mxmlGetNextSibling (m : memory) (node : ptr address) : result (ptr address) :=
  if is_null node then Ok NULL
  else n ← deref m node; Ok n.(next).

(** 'mxmlGetOpaque()' - Get an opaque string value for a node or its first
    child. *)
Definition mxmlGetOpaque (m : memory) (node : ptr address) : result (ptr string) :=
  if is_null node then Ok NULL
  else
    n ← deref m node;
    if bool_decide (n.(type) = MXML_TYPE_OPAQUE) then Ok n.(value).(opaque)
    else
      c ← Ok (bool_decide (n.(type) = MXML_TYPE_ELEMENT))
          &&& Ok (negb (is_null n.(child)))
          &&& (k ← deref m n.(child); Ok (bool_decide (k.(type) = MXML_TYPE_OPAQUE)));
      if c : bool then k ← deref m n.(child); Ok k.(value).(opaque)
      else Ok NULL.

(** 'mxmlGetParent()' - Get the parent node. *)
Definition mxmlGetParent (m : memory) (node : ptr address) : result (ptr address) :=
  if is_null node then Ok NULL
  else n ← deref m node; Ok n.(parent).

(** 'mxmlGetPrevSibling()' - Get the previous node for the current parent. *)
Definition mxmlGetPrevSibling (m : memory) (node : ptr address) : result (ptr address) :=
  if is_null node then Ok NULL
  else n ← deref m node; Ok n.(prev).

(** 'mxmlGetReal()' - Get the real value for a node or its first child. *)
Definition mxmlGetReal (m : memory) (node : ptr address) : result float :=
  if is_null node then Ok 0%float
  else
    n ← deref m node;
    if bool_decide (n.(type) = MXML_TYPE_REAL) then Ok n.(value).(real)
    else
      c ← Ok (bool_decide (n.(type) = MXML_TYPE_ELEMENT))
          &&& Ok (negb (is_null n.(child)))
          &&& (k ← deref m n.(child); Ok (bool_decide (k.(type) = MXML_TYPE_REAL)));
      if c : bool then k ← deref m n.(child); Ok k.(value).(real)
      else Ok 0%float.

(** 'mxmlGetText()' - Get the text value for a node or its first child.
    The result pairs the returned string with the caller's cell as the
    call leaves it ([NULL] when no cell was passed). *)
Definition mxmlGetText (m : memory) (node : ptr address) (whitespace : ptr int_cell)
  : result (ptr string * ptr int_cell) :=
  if is_null node then
    let whitespace := assign_if_set whitespace 0 in
    Ok (NULL, whitespace)
  else
    n ← deref m node;
    if bool_decide (n.(type) = MXML_TYPE_TEXT) then
      let whitespace := assign_if_set whitespace n.(value).(text).(mxml_private.whitespace) in
      Ok (n.(value).(text).(text_string), whitespace)
    else
      c ← Ok (bool_decide (n.(type) = MXML_TYPE_ELEMENT))
          &&& Ok (negb (is_null n.(child)))
          &&& (k ← deref m n.(child); Ok (bool_decide (k.(type) = MXML_TYPE_TEXT)));
      if c : bool then
        k ← deref m n.(child);
        let whitespace := assign_if_set whitespace k.(value).(text).(mxml_private.whitespace) in
        Ok (k.(value).(text).(text_string), whitespace)
      else
        let whitespace := assign_if_set whitespace 0 in
        Ok (NULL, whitespace).

(** 'mxmlGetType()' - Get the node type. *)
Definition mxmlGetType (m : memory) (node : ptr address) : result mxml_type_t :=
  if is_null node then Ok MXML_TYPE_IGNORE
  else n ← deref m node; Ok n.(type).

(** 'mxmlGetUserData()' - Get the user data pointer for a node. *)
Definition mxmlGetUserData (m : memory) (node : ptr address) : result (ptr address) :=
  if is_null node then Ok NULL
  else n ← deref m node; Ok n.(user_data).

(** ** Vocabulary of the accessor contract *)

(** The five payload kinds whose getter falls back on the first child. *)
Inductive kind : Set :=
  | KInteger
  | KReal
  | KOpaque
  | KText
  | KCustom.

Definition kind_type (K : kind) : mxml_type_t :=
  match K with
  | KInteger => MXML_TYPE_INTEGER
  | KReal => MXML_TYPE_REAL
  | KOpaque => MXML_TYPE_OPAQUE
  | KText => MXML_TYPE_TEXT
  | KCustom => MXML_TYPE_CUSTOM
  end.

(** What a typed getter hands back; for text, the string together with
    the caller's whitespace cell after the call. *)
Inductive payload : Type :=
  | an_integer (i : Z)
  | a_real (r : float)
  | an_opaque (s : ptr string)
  | a_text (s : ptr string) (whitespace : ptr int_cell)
  | a_custom (d : ptr address).

(** The typed getter for kind [K]. *)
Definition typed_get (K : kind) (m : memory) (node : ptr address)
    (whitespace : ptr int_cell) : result payload :=
  match K with
  | KInteger => an_integer <$> mxmlGetInteger m node
  | KReal => a_real <$> mxmlGetReal m node
  | KOpaque => an_opaque <$> mxmlGetOpaque m node
  | KText => (fun r => a_text r.1 r.2) <$> mxmlGetText m node whitespace
  | KCustom => a_custom <$> mxmlGetCustom m node
  end.

(** The payload of kind [K] that node [n] stores. *)
Definition stored (K : kind) (n : mxml_node_t) (whitespace : ptr int_cell) : payload :=
  match K with
  | KInteger => an_integer n.(value).(integer)
  | KReal => a_real n.(value).(real)
  | KOpaque => an_opaque n.(value).(opaque)
  | KText => a_text n.(value).(text).(text_string)
               (assign_if_set whitespace n.(value).(text).(mxml_private.whitespace))
  | KCustom => a_custom n.(value).(custom).(data)
  end.

(** The value each getter documents for "no such value": 0, 0.0 or
    [NULL], and for text [NULL] with the flag cleared. *)
Definition absent_marker (K : kind) (whitespace : ptr int_cell) : payload :=
  match K with
  | KInteger => an_integer 0
  | KReal => a_real 0%float
  | KOpaque => an_opaque NULL
  | KText => a_text NULL (assign_if_set whitespace 0)
  | KCustom => a_custom NULL
  end.

(** Node [n] has no first child of type [T]: it has no child at all, or
    its first child is a live node of another type. *)
Definition first_child_lacks (m : memory) (n : mxml_node_t) (T : mxml_type_t) : Prop :=
  n.(child) = NULL ∨
  ∃ c k, n.(child) = Ref c ∧ m !! c = Some k ∧ k.(type) ≠ T.

(** The pointers a getter follows from [node] are null or live: [node]
    itself and, for an element, its first child. *)
Definition readable (m : memory) (node : ptr address) : Prop :=
  node = NULL ∨
  ∃ a n, node = Ref a ∧ m !! a = Some n ∧
         (n.(type) = MXML_TYPE_ELEMENT →
          n.(child) = NULL ∨ ∃ c k, n.(child) = Ref c ∧ m !! c = Some k).

(** [node] is an element whose name is the CDATA marker followed by
    [content]. *)
Definition is_cdata (m : memory) (node : ptr address) (content : string) : Prop :=
  ∃ a n, node = Ref a ∧ m !! a = Some n ∧
         n.(type) = MXML_TYPE_ELEMENT ∧
         n.(value).(element).(name) = Ref (String.append "![CDATA[" content).

(** ** Walking the tree with the structural getters *)

(** A node pointer that is safe to hand to an accessor. *)
Definition null_or_live (m : memory) (p : ptr address) : Prop :=
  match p with
  | NULL => True
  | Ref a => is_Some (m !! a)
  end.

#[global] Instance null_or_live_dec m p : Decision (null_or_live m p).
Proof. destruct p; simpl; apply _. Defined.

(** Every link of node [n] is null or live. *)
Definition links_live (m : memory) (n : mxml_node_t) : Prop :=
  null_or_live m n.(next) ∧ null_or_live m n.(prev) ∧
  null_or_live m n.(parent) ∧ null_or_live m n.(child) ∧
  null_or_live m n.(last_child).

#[global] Instance links_live_dec m n : Decision (links_live m n).
Proof. unfold links_live. apply _. Defined.

(** A store without dangling links. *)
Definition closed (m : memory) : Prop :=
  map_Forall (fun _ n => links_live m n) m.

#[global] Instance closed_dec m : Decision (closed m).
Proof. unfold closed. apply _. Defined.

(** One call of a getter that returns a node. *)
Inductive step : Set :=
  | to_parent
  | to_next_sibling
  | to_prev_sibling
  | to_first_child
  | to_last_child.

Definition take (m : memory) (s : step) (node : ptr address) : result (ptr address) :=
  match s with
  | to_parent => mxmlGetParent m node
  | to_next_sibling => mxmlGetNextSibling m node
  | to_prev_sibling => mxmlGetPrevSibling m node
  | to_first_child => mxmlGetFirstChild m node
  | to_last_child => mxmlGetLastChild m node
  end.

(** Getter calls chained on each other's results, first step first, as in
    [mxmlGetNextSibling(mxmlGetFirstChild(node))] for
    [[to_first_child; to_next_sibling]]. *)
Fixpoint walk (m : memory) (path : list step) (node : ptr address)
  : result (ptr address) :=
  match path with
  | nil => Ok node
  | s :: path' => q ← take m s node; walk m path' q
  end.

(** ** Example trees *)

Definition with_links (n : mxml_node_t) (up first last : ptr address) : mxml_node_t :=
  {| type := n.(type); next := n.(next); prev := n.(prev); parent := up;
     child := first; last_child := last; value := n.(value);
     user_data := n.(user_data) |}.

Definition element_node (nm : string) : mxml_node_t :=
  {| type := MXML_TYPE_ELEMENT; next := NULL; prev := NULL; parent := NULL;
     child := NULL; last_child := NULL;
     value := {| element := {| name := Ref nm |}; integer := 0; opaque := NULL;
                 real := 0%float;
                 text := {| whitespace := 0; text_string := NULL |};
                 custom := {| data := NULL |} |};
     user_data := NULL |}.

Definition integer_node (i : Z) : mxml_node_t :=
  {| type := MXML_TYPE_INTEGER; next := NULL; prev := NULL; parent := NULL;
     child := NULL; last_child := NULL;
     value := {| element := {| name := NULL |}; integer := i; opaque := NULL;
                 real := 0%float;
                 text := {| whitespace := 0; text_string := NULL |};
                 custom := {| data := NULL |} |};
     user_data := NULL |}.

Definition text_node (ws : Z) (s : string) : mxml_node_t :=
  {| type := MXML_TYPE_TEXT; next := NULL; prev := NULL; parent := NULL;
     child := NULL; last_child := NULL;
     value := {| element := {| name := NULL |}; integer := 0; opaque := NULL;
                 real := 0%float;
                 text := {| whitespace := ws; text_string := Ref s |};
                 custom := {| data := NULL |} |};
     user_data := NULL |}.

(** <foo>42</foo> at addresses 1 and 2; a CDATA element at 3; the text
    word at 4; <a><b>7</b></a> at 5, 6 and 7; an empty CDATA at 8. *)
Definition example_tree : memory :=
  <[1%positive := with_links (element_node "foo") NULL (Ref 2%positive) (Ref 2%positive)]>
  (<[2%positive := with_links (integer_node 42) (Ref 1%positive) NULL NULL]>
  (<[3%positive := element_node "![CDATA[hello]]"]>
  (<[4%positive := text_node 1 "word"]>
  (<[5%positive := with_links (element_node "a") NULL (Ref 6%positive) (Ref 6%positive)]>
  (<[6%positive := with_links (element_node "b") (Ref 5%positive) (Ref 7%positive) (Ref 7%positive)]>
  (<[7%positive := with_links (integer_node 7) (Ref 6%positive) NULL NULL]>
  (<[8%positive := element_node "![CDATA["]> ∅))))))).

Definition with_siblings (n : mxml_node_t) (before after : ptr address) : mxml_node_t :=
  {| type := n.(type); next := after; prev := before; parent := n.(parent);
     child := n.(child); last_child := n.(last_child); value := n.(value);
     user_data := n.(user_data) |}.

(** <p>1 word</p>: the element at 1, its children, an integer and a text
    word, at 2 and 3. *)
Definition example_siblings : memory :=
  <[1%positive := with_links (element_node "p") NULL (Ref 2%positive) (Ref 3%positive)]>
  (<[2%positive := with_siblings (with_links (integer_node 1) (Ref 1%positive) NULL NULL)
                     NULL (Ref 3%positive)]>
  (<[3%positive := with_siblings (with_links (text_node 1 "word") (Ref 1%positive) NULL NULL)
                     (Ref 2%positive) NULL]> ∅)).

(** ** Running the accessors on the example trees *)

Example foo_integer :
  mxmlGetInteger example_tree (Ref 1%positive) = Ok 42 ∧
  mxmlGetInteger example_tree (Ref 2%positive) = Ok 42 ∧
  mxmlGetReal example_tree (Ref 1%positive) = Ok 0%float ∧
  mxmlGetElement example_tree (Ref 1%positive) = Ok (Ref "foo"%string) ∧
  mxmlGetElement example_tree (Ref 2%positive) = Ok NULL.
Proof. repeat split; reflexivity. Qed.

Example cdata_hello :
  mxmlGetCDATA example_tree (Ref 3%positive) = Ok (Ref "hello]]"%string) ∧
  mxmlGetCDATA example_tree (Ref 1%positive) = Ok NULL ∧
  mxmlGetCDATA example_tree (Ref 8%positive) = Ok (Ref ""%string).
Proof. repeat split; reflexivity. Qed.

Example text_word :
  mxmlGetText example_tree (Ref 4%positive) (Ref Indeterminate)
    = Ok (Ref "word"%string, Ref (Int 1)) ∧
  mxmlGetText example_tree NULL (Ref Indeterminate) = Ok (NULL, Ref (Int 0)) ∧
  mxmlGetText example_tree (Ref 4%positive) NULL = Ok (Ref "word"%string, NULL).
Proof. repeat split; reflexivity. Qed.

Example grandchild_not_reached :
  mxmlGetInteger example_tree (Ref 5%positive) = Ok 0 ∧
  mxmlGetInteger example_tree (Ref 6%positive) = Ok 7.
Proof. repeat split; reflexivity. Qed.

Example dangling_pointer :
  mxmlGetInteger example_tree (Ref 9%positive) = Undefined.
Proof. reflexivity. Qed.

(** ** Strings: what the [strncmp] test and the [+ 8] amount to *)

Lemma first_byte_inj c d s t :
  first_byte (String c s) = first_byte (String d t) → c = d.
Proof.
  simpl. intros H%N2Z.inj.
  rewrite <- (ascii_N_embedding c), <- (ascii_N_embedding d). by rewrite H.
Qed.

(** Comparing the first [length p] bytes against a NUL-free [p] yields 0
    exactly on the strings that start with [p]. *)
Lemma strncmp_chars_starts_with p :
  no_nul p →
  ∀ s, strncmp_chars s p (String.length p) = 0 ↔ ∃ r, s = String.append p r.
Proof.
  induction p as [|c p IH]; intros Hp s.
  - simpl. split; eauto.
  - destruct Hp as [Hc Hp]. cbn [String.length strncmp_chars rest].
    destruct s as [|d s].
    + change (first_byte EmptyString) with 0.
      rewrite bool_decide_eq_false_2 by (intros E; symmetry in E; exact (Hc E)).
      split; [lia | intros [r Hr]; discriminate Hr].
    + case_bool_decide as Hdc.
      * apply first_byte_inj in Hdc as ->.
        rewrite bool_decide_eq_false_2 by done.
        rewrite (IH Hp s).
        split; intros [r Hr]; exists r;
          [change (String c s = String c (String.append p r))
          |change (String c s = String c (String.append p r)) in Hr]; congruence.
      * split; [lia | intros [r Hr]].
        change (String d s = String c (String.append p r)) in Hr.
        injection Hr as -> _. exfalso. by apply Hdc.
Qed.

Lemma advance_append p r : advance (String.append p r) (String.length p) = Some r.
Proof.
  induction p as [|c p IH]; [reflexivity|].
  change (advance (String c (String.append p r)) (S (String.length p)) = Some r).
  exact IH.
Qed.

Lemma cdata_marker_no_nul : no_nul "![CDATA[".
Proof. simpl. repeat split; discriminate. Qed.

Lemma strncmp_cdata_marker s :
  strncmp_chars s "![CDATA[" 8 = 0 ↔ ∃ r, s = String.append "![CDATA[" r.
Proof. apply (strncmp_chars_starts_with "![CDATA[" cdata_marker_no_nul). Qed.

(** ** The accessors, case by case *)

Lemma deref_live m a n : m !! a = Some n → deref m (Ref a) = Ok n.
Proof. intros H. simpl. by rewrite H. Qed.

(** Runs a getter on a live node: unfolds it, reads the node and decides
    the comparisons of [type] fields. *)
Ltac run_getter :=
  unfold typed_get, mxmlGetCDATA, mxmlGetCustom, mxmlGetElement, mxmlGetFirstChild,
    mxmlGetInteger, mxmlGetLastChild, mxmlGetNextSibling, mxmlGetOpaque,
    mxmlGetParent, mxmlGetPrevSibling, mxmlGetReal, mxmlGetText, mxmlGetType,
    mxmlGetUserData, orelse, andalso;
  cbn [is_null mbind mret fmap result_bind result_ret result_fmap negb];
  repeat match goal with
         | H : ?m !! ?a = Some _ |- context [deref ?m (Ref ?a)] =>
             rewrite (deref_live m a _ H)
         | H : child ?n = _ |- context [child ?n] => rewrite H
         | H : type ?n = _ |- context [type ?n] => rewrite H
         | |- _ => progress
             cbn [is_null mbind mret fmap result_bind result_ret result_fmap negb
                  bool_decide decide_rel fst snd]
         | |- _ => case_bool_decide; try congruence
         end.

Lemma typed_get_null K m w : typed_get K m NULL w = Ok (absent_marker K w).
Proof. by destruct K. Qed.

Lemma typed_get_own K m a n w :
  m !! a = Some n → n.(type) = kind_type K →
  typed_get K m (Ref a) w = Ok (stored K n w).
Proof. intros Ha Hn. destruct K; simpl in Hn; run_getter; done. Qed.

Lemma typed_get_first_child K m a n c k w :
  m !! a = Some n → n.(type) = MXML_TYPE_ELEMENT →
  n.(child) = Ref c → m !! c = Some k → k.(type) = kind_type K →
  typed_get K m (Ref a) w = Ok (stored K k w).
Proof. intros Ha Hn Hc Hk HK. destruct K; simpl in HK; run_getter; done. Qed.

Lemma typed_get_mismatch K m a n w :
  m !! a = Some n → n.(type) ≠ kind_type K →
  (n.(type) = MXML_TYPE_ELEMENT → first_child_lacks m n (kind_type K)) →
  typed_get K m (Ref a) w = Ok (absent_marker K w).
Proof.
  intros Ha Hn Hc.
  destruct (decide (n.(type) = MXML_TYPE_ELEMENT)) as [He|He].
  - destruct (Hc He) as [Hnull | (c & k & Hchild & Hk & Hkt)];
      destruct K; simpl in *; run_getter; done.
  - destruct K; simpl in *; run_getter; done.
Qed.

Lemma typed_get_integer m node i w :
  typed_get KInteger m node w = Ok (an_integer i) → mxmlGetInteger m node = Ok i.
Proof. simpl. destruct (mxmlGetInteger m node); simpl; congruence. Qed.

Lemma typed_get_real m node r w :
  typed_get KReal m node w = Ok (a_real r) → mxmlGetReal m node = Ok r.
Proof. simpl. destruct (mxmlGetReal m node); simpl; congruence. Qed.

Lemma typed_get_text m node s c w :
  typed_get KText m node w = Ok (a_text s c) → mxmlGetText m node w = Ok (s, c).
Proof.
  simpl. destruct (mxmlGetText m node w) as [[??]|]; simpl; congruence.
Qed.

(** *** CDATA *)

Lemma starts_with_append p s :
  String.prefix p s = true ↔ ∃ r, s = String.append p r.
Proof.
  revert s. induction p as [|c p IH]; intros s.
  - split; [intros _; by exists s | by destruct s].
  - destruct s as [|d s]; cbn [String.prefix].
    + split; [done | intros [r Hr]; discriminate Hr].
    + change (∃ r, String d s = String.append (String c p) r)
        with (∃ r, String d s = String c (String.append p r)).
      destruct (ascii_dec c d) as [->|Hcd].
      * rewrite IH. split; intros [r Hr]; exists r; congruence.
      * split; [done | intros [r Hr]; congruence].
Qed.

Lemma substring_all s : String.substring 0 (String.length s) s = s.
Proof. induction s as [|c s IH]; simpl; congruence. Qed.

Lemma strip_marker r :
  String.substring 8 (String.length (String.append "![CDATA[" r) - 8)
    (String.append "![CDATA[" r) = r.
Proof.
  change (String.substring 0 (String.length r - 0) r = r).
  rewrite Nat.sub_0_r. apply substring_all.
Qed.

Lemma mxmlGetCDATA_null m : mxmlGetCDATA m NULL = Ok NULL.
Proof. reflexivity. Qed.

Lemma mxmlGetCDATA_not_element m a n :
  m !! a = Some n → n.(type) ≠ MXML_TYPE_ELEMENT →
  mxmlGetCDATA m (Ref a) = Ok NULL.
Proof. intros Ha Hn. run_getter; done. Qed.

Lemma mxmlGetCDATA_marker m a n content :
  m !! a = Some n → n.(type) = MXML_TYPE_ELEMENT →
  n.(value).(element).(name) = Ref (String.append "![CDATA[" content) →
  mxmlGetCDATA m (Ref a) = Ok (Ref content).
Proof.
  intros Ha Hn Hname. run_getter. rewrite Hname.
  cbn [strncmp mbind result_bind].
  rewrite bool_decide_eq_false_2.
  - cbn [ptr_add].
    assert (advance (String.append "![CDATA[" content) 8 = Some content) as ->
      by apply (advance_append "![CDATA[").
    done.
  - intros Hne. apply Hne, strncmp_cdata_marker. by exists content.
Qed.

Lemma mxmlGetCDATA_other_name m a n s :
  m !! a = Some n → n.(type) = MXML_TYPE_ELEMENT →
  n.(value).(element).(name) = Ref s →
  (∀ content, s ≠ String.append "![CDATA[" content) →
  mxmlGetCDATA m (Ref a) = Ok NULL.
Proof.
  intros Ha Hn Hname Hs. run_getter. rewrite Hname.
  cbn [strncmp mbind result_bind].
  rewrite bool_decide_eq_true_2; [done|].
  intros [r Hr]%strncmp_cdata_marker. by apply (Hs r).
Qed.

Lemma mxmlGetCDATA_inv m node content :
  mxmlGetCDATA m node = Ok (Ref content) → is_cdata m node content.
Proof.
  destruct node as [|a]; [discriminate|].
  destruct (m !! a) as [n|] eqn:Ha; [|by unfold mxmlGetCDATA; simpl; rewrite Ha].
  destruct (decide (n.(type) = MXML_TYPE_ELEMENT)) as [Hn|Hn];
    [|by rewrite (mxmlGetCDATA_not_element m a n Ha Hn)].
  destruct (n.(value).(element).(name)) as [|s] eqn:Hname;
    [by run_getter; rewrite Hname|].
  destruct (String.prefix "![CDATA[" s) eqn:Hs.
  - apply starts_with_append in Hs as [r ->].
    rewrite (mxmlGetCDATA_marker m a n r Ha Hn Hname).
    intros [= ->]. by exists a, n.
  - rewrite (mxmlGetCDATA_other_name m a n s Ha Hn Hname); [done|].
    intros r ->.
    assert (String.prefix "![CDATA[" (String.append "![CDATA[" r) = true) as Ht
      by (apply starts_with_append; by exists r).
    congruence.
Qed.

(** *** Element name and structure *)

Lemma mxmlGetElement_element m a n :
  m !! a = Some n → n.(type) = MXML_TYPE_ELEMENT →
  mxmlGetElement m (Ref a) = Ok n.(value).(element).(name).
Proof. intros Ha Hn. run_getter; done. Qed.

Lemma mxmlGetElement_other m a n :
  m !! a = Some n → n.(type) ≠ MXML_TYPE_ELEMENT →
  mxmlGetElement m (Ref a) = Ok NULL.
Proof. intros Ha Hn. run_getter; done. Qed.

Lemma mxmlGetFirstChild_element m a n :
  m !! a = Some n → n.(type) = MXML_TYPE_ELEMENT →
  mxmlGetFirstChild m (Ref a) = Ok n.(child).
Proof. intros Ha Hn. run_getter; done. Qed.

Lemma mxmlGetFirstChild_other m a n :
  m !! a = Some n → n.(type) ≠ MXML_TYPE_ELEMENT →
  mxmlGetFirstChild m (Ref a) = Ok NULL.
Proof. intros Ha Hn. run_getter; done. Qed.

Lemma mxmlGetLastChild_element m a n :
  m !! a = Some n → n.(type) = MXML_TYPE_ELEMENT →
  mxmlGetLastChild m (Ref a) = Ok n.(last_child).
Proof. intros Ha Hn. run_getter; done. Qed.

Lemma mxmlGetLastChild_other m a n :
  m !! a = Some n → n.(type) ≠ MXML_TYPE_ELEMENT →
  mxmlGetLastChild m (Ref a) = Ok NULL.
Proof. intros Ha Hn. run_getter; done. Qed.

Lemma mxmlGetParent_live m a n :
  m !! a = Some n → mxmlGetParent m (Ref a) = Ok n.(parent).
Proof. intros Ha. run_getter; done. Qed.

(** *** Text and its out-parameter *)

(** Passing a cell or not changes what is written, never what is
    returned or whether the call is defined. *)
Lemma mxmlGetText_cell m node w :
  mxmlGetText m node w
  = (fun r => (r.1, assign_if_set w (match r.2 with Ref (Int v) => v | _ => 0 end)))
      <$> mxmlGetText m node (Ref Indeterminate).
Proof.
  unfold mxmlGetText. destruct node as [|a]; [done|].
  cbn [is_null]. destruct (deref m (Ref a)) as [n|]; [|done].
  cbn [mbind result_bind]. case_bool_decide; [done|].
  destruct (Ok (bool_decide (type n = MXML_TYPE_ELEMENT)) &&& Ok (negb (is_null (child n)))
            &&& (k ← deref m (child n); Ok (bool_decide (type k = MXML_TYPE_TEXT))))
    as [[]|]; [|done|done].
  cbn [mbind result_bind]. by destruct (deref m (child n)).
Qed.

Lemma readable_text m node w :
  readable m node → ∃ s c, mxmlGetText m node w = Ok (s, c).
Proof.
  intros [->|(a & n & -> & Ha & Hchild)]; [by eexists _, _|].
  destruct (decide (n.(type) = MXML_TYPE_TEXT)) as [Hn|Hn].
  { eexists _, _. apply typed_get_text. by apply (typed_get_own KText m a n w). }
  destruct (decide (n.(type) = MXML_TYPE_ELEMENT)) as [He|He].
  - destruct (Hchild He) as [Hnull|(c & k & Hc & Hk)].
    + eexists _, _. apply typed_get_text.
      apply (typed_get_mismatch KText m a n w Ha Hn). intros _. by left.
    + destruct (decide (k.(type) = MXML_TYPE_TEXT)) as [Hkt|Hkt].
      * eexists _, _. apply typed_get_text.
        by apply (typed_get_first_child KText m a n c k w).
      * eexists _, _. apply typed_get_text.
        apply (typed_get_mismatch KText m a n w Ha Hn). intros _.
        right. by exists c, k.
  - eexists _, _. apply typed_get_text.
    by apply (typed_get_mismatch KText m a n w Ha Hn).
Qed.

(** ** The accessor contract *)

(** C1 (delegation symmetry).  For an element [e] whose first child exists
    and has kind [K], with [K] any of Integer, Real, Opaque, Text and
    Custom, the getter for [K] gives on [e] the same result as on the
    first child, namely the payload the child stores. *)
Theorem delegation_symmetry (K : kind) (m : memory) (e c : address)
    (n k : mxml_node_t) (w : ptr int_cell) :
  m !! e = Some n → n.(type) = MXML_TYPE_ELEMENT →
  n.(child) = Ref c → m !! c = Some k → k.(type) = kind_type K →
  typed_get K m (Ref e) w = typed_get K m (Ref c) w ∧
  typed_get K m (Ref e) w = Ok (stored K k w).
Proof.
  intros He Hn Hc Hk HK.
  rewrite (typed_get_first_child K m e n c k w He Hn Hc Hk HK).
  by rewrite (typed_get_own K m c k w Hk HK).
Qed.

Lemma delegation_symmetry_witness :
  typed_get KInteger example_tree (Ref 1%positive) NULL
    = typed_get KInteger example_tree (Ref 2%positive) NULL ∧
  typed_get KInteger example_tree (Ref 1%positive) NULL = Ok (an_integer 42).
Proof.
  apply (delegation_symmetry KInteger example_tree 1%positive 2%positive
           (with_links (element_node "foo") NULL (Ref 2%positive) (Ref 2%positive))
           (with_links (integer_node 42) (Ref 1%positive) NULL NULL) NULL);
    reflexivity.
Defined.

(** C2 (no second-level delegation).  For an element [e] whose first
    child exists but has a kind other than [K], the getter for [K] gives
    the absent/default marker on [e], whatever hangs below the first
    child. *)
Theorem no_second_level_delegation (K : kind) (m : memory) (e c : address)
    (n k : mxml_node_t) (w : ptr int_cell) :
  m !! e = Some n → n.(type) = MXML_TYPE_ELEMENT →
  n.(child) = Ref c → m !! c = Some k → k.(type) ≠ kind_type K →
  typed_get K m (Ref e) w = Ok (absent_marker K w).
Proof.
  intros He Hn Hc Hk HK.
  apply (typed_get_mismatch K m e n w He).
  - rewrite Hn. by destruct K.
  - intros _. right. by exists c, k.
Qed.

(** In <a><b>7</b></a> the grandchild of <a> is an integer; <a> still
    reads as 0. *)
Lemma no_second_level_delegation_witness :
  typed_get KInteger example_tree (Ref 5%positive) NULL = Ok (an_integer 0) ∧
  typed_get KInteger example_tree (Ref 6%positive) NULL = Ok (an_integer 7).
Proof.
  split; [|reflexivity].
  apply (no_second_level_delegation KInteger example_tree 5%positive 6%positive
           (with_links (element_node "a") NULL (Ref 6%positive) (Ref 6%positive))
           (with_links (element_node "b") (Ref 5%positive) (Ref 7%positive) (Ref 7%positive))
           NULL);
    try reflexivity.
  discriminate.
Defined.

(** C3 (totality on an absent node).  On [NULL] every typed getter
    returns its documented default, [mxmlGetType] returns
    [MXML_TYPE_IGNORE], and that enumerator differs from the six payload
    kinds. *)
Theorem absent_node_defaults (m : memory) (w : ptr int_cell) :
  mxmlGetCDATA m NULL = Ok NULL ∧
  mxmlGetCustom m NULL = Ok NULL ∧
  mxmlGetElement m NULL = Ok NULL ∧
  mxmlGetInteger m NULL = Ok 0 ∧
  mxmlGetOpaque m NULL = Ok NULL ∧
  mxmlGetReal m NULL = Ok 0%float ∧
  mxmlGetText m NULL w = Ok (NULL, assign_if_set w 0) ∧
  mxmlGetType m NULL = Ok MXML_TYPE_IGNORE ∧
  MXML_TYPE_IGNORE ≠ MXML_TYPE_ELEMENT ∧
  ∀ K, MXML_TYPE_IGNORE ≠ kind_type K.
Proof. repeat split; try reflexivity; try discriminate. by intros []. Qed.

(** C4 (CDATA contract).  [mxmlGetCDATA] returns the name less its first
    eight characters exactly for a live element whose name starts with
    the marker; for [NULL], for a node of another type and for an element
    with another name it returns [NULL], without looking at any child. *)
Theorem cdata_contract (m : memory) (a : address) (n : mxml_node_t) :
  m !! a = Some n →
  (∀ node content,
     mxmlGetCDATA m node = Ok (Ref content) ↔ is_cdata m node content) ∧
  (∀ s, n.(type) = MXML_TYPE_ELEMENT → n.(value).(element).(name) = Ref s →
        String.prefix "![CDATA[" s = true →
        mxmlGetCDATA m (Ref a)
          = Ok (Ref (String.substring 8 (String.length s - 8) s))) ∧
  mxmlGetCDATA m NULL = Ok NULL ∧
  (n.(type) ≠ MXML_TYPE_ELEMENT → mxmlGetCDATA m (Ref a) = Ok NULL) ∧
  (∀ s, n.(type) = MXML_TYPE_ELEMENT → n.(value).(element).(name) = Ref s →
        String.prefix "![CDATA[" s = false →
        mxmlGetCDATA m (Ref a) = Ok NULL) ∧
  (n.(type) = MXML_TYPE_ELEMENT →
   n.(value).(element).(name) = Ref "![CDATA[hello]]"%string →
   mxmlGetCDATA m (Ref a) = Ok (Ref "hello]]"%string)) ∧
  (n.(type) = MXML_TYPE_ELEMENT →
   n.(value).(element).(name) = Ref "foo"%string →
   mxmlGetCDATA m (Ref a) = Ok NULL).
Proof.
  intros Ha. repeat split.
  - apply mxmlGetCDATA_inv.
  - intros (b & k & -> & Hb & Hk & Hname).
    by apply (mxmlGetCDATA_marker m b k content).
  - intros s Hn Hname [r ->]%starts_with_append.
    rewrite strip_marker. by apply (mxmlGetCDATA_marker m a n r).
  - by apply mxmlGetCDATA_not_element.
  - intros s Hn Hname Hs.
    apply (mxmlGetCDATA_other_name m a n s Ha Hn Hname).
    intros r ->.
    assert (String.prefix "![CDATA[" (String.append "![CDATA[" r) = true) as Ht
      by (apply starts_with_append; by exists r).
    congruence.
  - intros Hn Hname. by apply (mxmlGetCDATA_marker m a n "hello]]").
  - intros Hn Hname.
    apply (mxmlGetCDATA_other_name m a n "foo" Ha Hn Hname).
    intros r Hr. discriminate Hr.
Qed.

Lemma cdata_contract_witness :
  mxmlGetCDATA example_tree (Ref 3%positive) = Ok (Ref "hello]]"%string) ∧
  mxmlGetCDATA example_tree (Ref 2%positive) = Ok NULL.
Proof.
  split.
  - destruct (cdata_contract example_tree 3%positive
                (element_node "![CDATA[hello]]") eq_refl)
      as (_ & _ & _ & _ & _ & Hhello & _).
    apply Hhello; reflexivity.
  - destruct (cdata_contract example_tree 2%positive
                (with_links (integer_node 42) (Ref 1%positive) NULL NULL) eq_refl)
      as (_ & _ & _ & Hother & _).
    apply Hother. discriminate.
Defined.

(** C5 (numeric defaults).  [mxmlGetInteger] returns 0 and [mxmlGetReal]
    returns 0.0 on [NULL] and on a node that is not of the kind asked for
    and, if it is an element, has no first child of that kind; a node of
    the kind asked for yields its stored number unchanged. *)
Theorem numeric_defaults (m : memory) (a : address) (n : mxml_node_t) :
  m !! a = Some n →
  mxmlGetInteger m NULL = Ok 0 ∧
  mxmlGetReal m NULL = Ok 0%float ∧
  (n.(type) ≠ MXML_TYPE_INTEGER →
   (n.(type) = MXML_TYPE_ELEMENT → first_child_lacks m n MXML_TYPE_INTEGER) →
   mxmlGetInteger m (Ref a) = Ok 0) ∧
  (n.(type) ≠ MXML_TYPE_REAL →
   (n.(type) = MXML_TYPE_ELEMENT → first_child_lacks m n MXML_TYPE_REAL) →
   mxmlGetReal m (Ref a) = Ok 0%float) ∧
  (n.(type) = MXML_TYPE_INTEGER →
   mxmlGetInteger m (Ref a) = Ok n.(value).(integer)) ∧
  (n.(type) = MXML_TYPE_REAL →
   mxmlGetReal m (Ref a) = Ok n.(value).(real)).
Proof.
  intros Ha. repeat split.
  - intros Hn Hc. apply (typed_get_integer m _ _ NULL).
    by apply (typed_get_mismatch KInteger m a n).
  - intros Hn Hc. apply (typed_get_real m _ _ NULL).
    by apply (typed_get_mismatch KReal m a n).
  - intros Hn. apply (typed_get_integer m _ _ NULL).
    by apply (typed_get_own KInteger m a n).
  - intros Hn. apply (typed_get_real m _ _ NULL).
    by apply (typed_get_own KReal m a n).
Qed.

Lemma numeric_defaults_witness :
  mxmlGetInteger example_tree (Ref 2%positive) = Ok 42 ∧
  mxmlGetReal example_tree (Ref 2%positive) = Ok 0%float ∧
  mxmlGetInteger example_tree (Ref 4%positive) = Ok 0.
Proof.
  destruct (numeric_defaults example_tree 2%positive
              (with_links (integer_node 42) (Ref 1%positive) NULL NULL) eq_refl)
    as (_ & _ & _ & Hreal & Hint & _).
  destruct (numeric_defaults example_tree 4%positive (text_node 1 "word") eq_refl)
    as (_ & _ & Hzero & _).
  split; [|split].
  - apply Hint. reflexivity.
  - apply Hreal; discriminate.
  - apply Hzero; discriminate.
Defined.

(** C6 (the whitespace flag is always defined).  When a cell is passed,
    every defined run of [mxmlGetText] leaves an int in it: the node's
    flag for a text node, the first child's flag when an element
    delegates to a text child, 0 for [NULL] and when no text is found. *)
Theorem text_whitespace_always_defined (m : memory) (a : address)
    (n : mxml_node_t) (cell : int_cell) :
  m !! a = Some n →
  mxmlGetText m NULL (Ref cell) = Ok (NULL, Ref (Int 0)) ∧
  (n.(type) = MXML_TYPE_TEXT →
   mxmlGetText m (Ref a) (Ref cell)
     = Ok (n.(value).(text).(text_string),
           Ref (Int n.(value).(text).(mxml_private.whitespace)))) ∧
  (∀ c k, n.(type) = MXML_TYPE_ELEMENT → n.(child) = Ref c →
          m !! c = Some k → k.(type) = MXML_TYPE_TEXT →
          mxmlGetText m (Ref a) (Ref cell)
            = Ok (k.(value).(text).(text_string),
                  Ref (Int k.(value).(text).(mxml_private.whitespace)))) ∧
  (n.(type) ≠ MXML_TYPE_TEXT →
   (n.(type) = MXML_TYPE_ELEMENT → first_child_lacks m n MXML_TYPE_TEXT) →
   mxmlGetText m (Ref a) (Ref cell) = Ok (NULL, Ref (Int 0))) ∧
  (∀ node, readable m node →
           ∃ s v, mxmlGetText m node (Ref cell) = Ok (s, Ref (Int v))) ∧
  (∀ node s c, mxmlGetText m node (Ref cell) = Ok (s, c) → ∃ v, c = Ref (Int v)) ∧
  (n.(type) = MXML_TYPE_TEXT →
   n.(value).(text).(text_string) = Ref "word"%string →
   n.(value).(text).(mxml_private.whitespace) = 1 →
   mxmlGetText m (Ref a) (Ref cell) = Ok (Ref "word"%string, Ref (Int 1))).
Proof.
  intros Ha.
  assert (∀ node s c, mxmlGetText m node (Ref cell) = Ok (s, c) → ∃ v, c = Ref (Int v))
    as Hwritten.
  { intros node s c. rewrite mxmlGetText_cell.
    destruct (mxmlGetText m node (Ref Indeterminate)) as [[s' c']|]; [|done].
    intros [= _ <-]. by eexists. }
  repeat split.
  - intros Hn. apply typed_get_text.
    by apply (typed_get_own KText m a n (Ref cell)).
  - intros c k Hn Hc Hk Hkt. apply typed_get_text.
    by apply (typed_get_first_child KText m a n c k (Ref cell)).
  - intros Hn Hc. apply typed_get_text.
    by apply (typed_get_mismatch KText m a n (Ref cell)).
  - intros node Hr.
    destruct (readable_text m node (Ref cell) Hr) as (s & c & Hrun).
    destruct (Hwritten node s c Hrun) as [v ->]. by exists s, v.
  - exact Hwritten.
  - intros Hn Hs Hw. rewrite <- Hs, <- Hw. apply typed_get_text.
    by apply (typed_get_own KText m a n (Ref cell)).
Qed.

Lemma text_whitespace_always_defined_witness :
  mxmlGetText example_tree (Ref 4%positive) (Ref Indeterminate)
    = Ok (Ref "word"%string, Ref (Int 1)) ∧
  mxmlGetText example_tree NULL (Ref Indeterminate) = Ok (NULL, Ref (Int 0)).
Proof.
  destruct (text_whitespace_always_defined example_tree 4%positive
              (text_node 1 "word") Indeterminate eq_refl)
    as (Hnull & _ & _ & _ & _ & _ & Hword).
  split; [apply Hword; reflexivity | exact Hnull].
Defined.

(** C7 (structural getters).  [mxmlGetFirstChild] and [mxmlGetLastChild]
    return [NULL] for [NULL] and for any node that is not an element,
    whatever its fields hold, and the stored pointers for an element
    ([NULL] when it has no children); [mxmlGetParent] returns [NULL] on a
    root. *)
Theorem structural_getters (m : memory) (a : address) (n : mxml_node_t) :
  m !! a = Some n →
  mxmlGetFirstChild m NULL = Ok NULL ∧
  mxmlGetLastChild m NULL = Ok NULL ∧
  mxmlGetParent m NULL = Ok NULL ∧
  (n.(type) ≠ MXML_TYPE_ELEMENT →
   mxmlGetFirstChild m (Ref a) = Ok NULL ∧ mxmlGetLastChild m (Ref a) = Ok NULL) ∧
  (n.(type) = MXML_TYPE_ELEMENT →
   mxmlGetFirstChild m (Ref a) = Ok n.(child) ∧
   mxmlGetLastChild m (Ref a) = Ok n.(last_child)) ∧
  (n.(type) = MXML_TYPE_ELEMENT → n.(child) = NULL → n.(last_child) = NULL →
   mxmlGetFirstChild m (Ref a) = Ok NULL ∧ mxmlGetLastChild m (Ref a) = Ok NULL) ∧
  (n.(parent) = NULL → mxmlGetParent m (Ref a) = Ok NULL).
Proof.
  intros Ha. split; [done|]. split; [done|]. split; [done|].
  split; [|split; [|split]].
  - intros Hn. by rewrite (mxmlGetFirstChild_other m a n), (mxmlGetLastChild_other m a n).
  - intros Hn.
    by rewrite (mxmlGetFirstChild_element m a n), (mxmlGetLastChild_element m a n).
  - intros Hn Hc Hl.
    rewrite (mxmlGetFirstChild_element m a n), (mxmlGetLastChild_element m a n) by done.
    by rewrite Hc, Hl.
  - intros Hp. by rewrite (mxmlGetParent_live m a n), Hp.
Qed.

(** The childless root element at 3, and the integer node at 2, which
    is no element. *)
Lemma structural_getters_witness :
  mxmlGetParent example_tree (Ref 3%positive) = Ok NULL ∧
  mxmlGetFirstChild example_tree (Ref 3%positive) = Ok NULL ∧
  mxmlGetLastChild example_tree (Ref 3%positive) = Ok NULL ∧
  mxmlGetFirstChild example_tree (Ref 2%positive) = Ok NULL.
Proof.
  destruct (structural_getters example_tree 3%positive
              (element_node "![CDATA[hello]]") eq_refl)
    as (_ & _ & _ & _ & _ & Hchildless & Hroot).
  destruct (structural_getters example_tree 2%positive
              (with_links (integer_node 42) (Ref 1%positive) NULL NULL) eq_refl)
    as (_ & _ & _ & Hother & _).
  split; [apply Hroot; reflexivity|].
  split; [apply Hchildless; reflexivity|].
  split; [apply Hchildless; reflexivity|].
  apply Hother. discriminate.
Defined.

(** C8 (the element name is never delegated).  [mxmlGetElement] returns
    the node's own name for a live element and [NULL] for [NULL] and for
    a node of any other type; it reads nothing but the node itself, so an
    integer child of <foo> has no name while its parent reads "foo". *)
Theorem element_name_no_delegation (m : memory) (a : address) (n : mxml_node_t) :
  m !! a = Some n →
  mxmlGetElement m NULL = Ok NULL ∧
  (n.(type) = MXML_TYPE_ELEMENT →
   mxmlGetElement m (Ref a) = Ok n.(value).(element).(name)) ∧
  (n.(type) ≠ MXML_TYPE_ELEMENT → mxmlGetElement m (Ref a) = Ok NULL) ∧
  (∀ m' : memory, m' !! a = Some n →
                  mxmlGetElement m' (Ref a) = mxmlGetElement m (Ref a)) ∧
  (∀ c k, n.(type) = MXML_TYPE_ELEMENT →
          n.(value).(element).(name) = Ref "foo"%string →
          n.(child) = Ref c → m !! c = Some k → k.(type) = MXML_TYPE_INTEGER →
          mxmlGetElement m (Ref a) = Ok (Ref "foo"%string) ∧
          mxmlGetElement m (Ref c) = Ok NULL).
Proof.
  intros Ha. split; [done|]. split; [|split; [|split]].
  - by apply mxmlGetElement_element.
  - by apply mxmlGetElement_other.
  - intros m' Ha'.
    destruct (decide (n.(type) = MXML_TYPE_ELEMENT)) as [Hn|Hn].
    + by rewrite (mxmlGetElement_element m a n), (mxmlGetElement_element m' a n).
    + by rewrite (mxmlGetElement_other m a n), (mxmlGetElement_other m' a n).
  - intros c k Hn Hname Hc Hk Hkt. split.
    + by rewrite (mxmlGetElement_element m a n), Hname.
    + apply (mxmlGetElement_other m c k Hk). by rewrite Hkt.
Qed.

Lemma element_name_no_delegation_witness :
  mxmlGetElement example_tree (Ref 1%positive) = Ok (Ref "foo"%string) ∧
  mxmlGetElement example_tree (Ref 2%positive) = Ok NULL.
Proof.
  destruct (element_name_no_delegation example_tree 1%positive
              (with_links (element_node "foo") NULL (Ref 2%positive) (Ref 2%positive))
              eq_refl)
    as (_ & _ & _ & _ & Hfoo).
  apply (Hfoo 2%positive (with_links (integer_node 42) (Ref 1%positive) NULL NULL));
    reflexivity.
Defined.

(** C9 (the string does not depend on the out-parameter).  Calling
    [mxmlGetText] with [whitespace] [NULL] is defined whenever the call
    with a cell is, returns the same string and writes nothing; on any
    readable node reference it is defined. *)
Theorem text_string_independent_of_whitespace (m : memory) (node : ptr address)
    (w : ptr int_cell) :
  fst <$> mxmlGetText m node NULL = fst <$> mxmlGetText m node w ∧
  (∀ s c, mxmlGetText m node w = Ok (s, c) → mxmlGetText m node NULL = Ok (s, NULL)) ∧
  (readable m node → ∃ s, mxmlGetText m node NULL = Ok (s, NULL)).
Proof.
  rewrite (mxmlGetText_cell m node NULL), (mxmlGetText_cell m node w).
  destruct (mxmlGetText m node (Ref Indeterminate)) as [[s0 c0]|] eqn:Hrun.
  - cbn [fmap result_fmap fst snd assign_if_set]. split; [done|]. split.
    + by intros s c [= -> _].
    + intros _. by exists s0.
  - cbn [fmap result_fmap]. split; [done|]. split; [done|].
    intros Hr. destruct (readable_text m node (Ref Indeterminate) Hr) as (s & c & Hs).
    congruence.
Qed.

Lemma text_string_independent_of_whitespace_witness :
  mxmlGetText example_tree (Ref 4%positive) NULL = Ok (Ref "word"%string, NULL).
Proof.
  destruct (text_string_independent_of_whitespace example_tree (Ref 4%positive)
              (Ref Indeterminate))
    as (_ & Hsame & _).
  apply (Hsame (Ref "word"%string) (Ref (Int 1))). reflexivity.
Defined.

(** C10 (an empty CDATA is not an absent one).  For an element whose name
    is exactly the marker, [mxmlGetCDATA] returns the empty string and not
    [NULL].  Every node reference that is no CDATA element reads
    differently: [NULL], a node of another type and an element with
    another name all give [NULL], and the empty string is returned for
    the elements named exactly the marker and for nothing else. *)
Theorem empty_cdata_is_not_absent (m : memory) (a : address) (n : mxml_node_t) :
  m !! a = Some n → n.(type) = MXML_TYPE_ELEMENT →
  n.(value).(element).(name) = Ref "![CDATA["%string →
  mxmlGetCDATA m (Ref a) = Ok (Ref ""%string) ∧
  mxmlGetCDATA m (Ref a) ≠ Ok NULL ∧
  (∀ b k, m !! b = Some k → k.(type) ≠ MXML_TYPE_ELEMENT →
          mxmlGetCDATA m (Ref b) = Ok NULL ∧
          mxmlGetCDATA m (Ref a) ≠ mxmlGetCDATA m (Ref b)) ∧
  (∀ b k s, m !! b = Some k → k.(type) = MXML_TYPE_ELEMENT →
            k.(value).(element).(name) = Ref s →
            String.prefix "![CDATA[" s = false →
            mxmlGetCDATA m (Ref b) = Ok NULL ∧
            mxmlGetCDATA m (Ref a) ≠ mxmlGetCDATA m (Ref b)) ∧
  (mxmlGetCDATA m NULL = Ok NULL ∧
   mxmlGetCDATA m (Ref a) ≠ mxmlGetCDATA m NULL) ∧
  (∀ node, (∀ content, ¬ is_cdata m node content) →
           mxmlGetCDATA m (Ref a) ≠ mxmlGetCDATA m node) ∧
  (∀ node, mxmlGetCDATA m node = Ok (Ref ""%string) ↔ is_cdata m node "").
Proof.
  intros Ha Hn Hname.
  rewrite (mxmlGetCDATA_marker m a n "" Ha Hn Hname).
  split; [done|]. split; [done|]. split; [|split; [|split; [|split]]].
  - intros b k Hb Hk. by rewrite (mxmlGetCDATA_not_element m b k Hb Hk).
  - intros b k s Hb Hk Hs Hprefix.
    rewrite (mxmlGetCDATA_other_name m b k s Hb Hk Hs); [done|].
    intros r ->.
    assert (String.prefix "![CDATA[" (String.append "![CDATA[" r) = true) as Ht
      by (apply starts_with_append; by exists r).
    congruence.
  - by rewrite mxmlGetCDATA_null.
  - intros node Hnot Heq. symmetry in Heq.
    by apply mxmlGetCDATA_inv, Hnot in Heq.
  - intros node. split; [apply mxmlGetCDATA_inv|].
    intros (b & k & -> & Hb & Hk & Hkname).
    by apply (mxmlGetCDATA_marker m b k "").
Qed.

(** The empty CDATA element at 8 against <foo> at 1, the integer at 2 and
    no node. *)
Lemma empty_cdata_is_not_absent_witness :
  mxmlGetCDATA example_tree (Ref 8%positive) = Ok (Ref ""%string) ∧
  mxmlGetCDATA example_tree (Ref 8%positive) ≠ Ok NULL ∧
  mxmlGetCDATA example_tree (Ref 1%positive) = Ok NULL ∧
  mxmlGetCDATA example_tree (Ref 8%positive)
    ≠ mxmlGetCDATA example_tree (Ref 1%positive) ∧
  mxmlGetCDATA example_tree (Ref 8%positive)
    ≠ mxmlGetCDATA example_tree (Ref 2%positive) ∧
  mxmlGetCDATA example_tree (Ref 8%positive) ≠ mxmlGetCDATA example_tree NULL.
Proof.
  destruct (empty_cdata_is_not_absent example_tree 8%positive
              (element_node "![CDATA[") eq_refl eq_refl eq_refl)
    as (Hempty & Hdistinct & Hother & Hnamed & [_ Hnull] & _).
  destruct (Hnamed 1%positive
              (with_links (element_node "foo") NULL (Ref 2%positive) (Ref 2%positive))
              "foo"%string eq_refl eq_refl eq_refl eq_refl)
    as [Hfoo Hfoo_differs].
  destruct (Hother 2%positive
              (with_links (integer_node 42) (Ref 1%positive) NULL NULL) eq_refl)
    as [_ Hint_differs]; [discriminate|].
  repeat split; assumption.
Defined.

(** ** Beyond the contract: definedness, locality and composition *)

Lemma deref_dangling (m : memory) a : m !! a = None → deref m (Ref a) = Undefined.
Proof. intros H. simpl. by rewrite H. Qed.

Lemma closed_example_siblings : closed example_siblings.
Proof. apply (bool_decide_unpack _). vm_compute. exact I. Qed.

(** What a delegating getter does on a live node, as one case split. *)
Lemma typed_get_live K m a n w :
  m !! a = Some n →
  typed_get K m (Ref a) w =
    if decide (n.(type) = kind_type K) then Ok (stored K n w)
    else if decide (n.(type) = MXML_TYPE_ELEMENT) then
      match n.(child) with
      | NULL => Ok (absent_marker K w)
      | Ref c =>
          match m !! c with
          | None => Undefined
          | Some k =>
              if decide (k.(type) = kind_type K) then Ok (stored K k w)
              else Ok (absent_marker K w)
          end
      end
    else Ok (absent_marker K w).
Proof.
  intros Ha.
  destruct (decide (n.(type) = kind_type K)) as [Hn|Hn];
    [by apply typed_get_own|].
  destruct (decide (n.(type) = MXML_TYPE_ELEMENT)) as [He|He];
    [|by apply (typed_get_mismatch K m a n)].
  destruct (n.(child)) as [|c] eqn:Hc.
  { apply (typed_get_mismatch K m a n w Ha Hn). intros _. by left. }
  destruct (m !! c) as [k|] eqn:Hk.
  - destruct (decide (k.(type) = kind_type K)) as [Hkt|Hkt].
    + by apply (typed_get_first_child K m a n c k).
    + apply (typed_get_mismatch K m a n w Ha Hn). intros _. right. by exists c, k.
  - destruct K; simpl in Hn; run_getter;
      rewrite (deref_dangling m c Hk); done.
Qed.

Lemma typed_get_dangling K m a w :
  m !! a = None → typed_get K m (Ref a) w = Undefined.
Proof.
  intros Ha. destruct K; simpl;
    unfold mxmlGetInteger, mxmlGetReal, mxmlGetOpaque, mxmlGetText, mxmlGetCustom;
    cbn [is_null]; by rewrite (deref_dangling m a Ha).
Qed.

Lemma kind_type_not_element K : kind_type K ≠ MXML_TYPE_ELEMENT.
Proof. by destruct K. Qed.

Lemma kind_type_inj K K' : kind_type K = kind_type K' → K = K'.
Proof. by destruct K, K'. Qed.

Lemma mxmlGetNextSibling_live m a n :
  m !! a = Some n → mxmlGetNextSibling m (Ref a) = Ok n.(next).
Proof. intros Ha. run_getter; done. Qed.

Lemma mxmlGetPrevSibling_live m a n :
  m !! a = Some n → mxmlGetPrevSibling m (Ref a) = Ok n.(prev).
Proof. intros Ha. run_getter; done. Qed.

Lemma mxmlGetType_live m a n :
  m !! a = Some n → mxmlGetType m (Ref a) = Ok n.(type).
Proof. intros Ha. run_getter; done. Qed.

Lemma take_null m s : take m s NULL = Ok NULL.
Proof. by destruct s. Qed.

Lemma take_closed m s p :
  closed m → null_or_live m p →
  ∃ q, take m s p = Ok q ∧ null_or_live m q.
Proof.
  intros Hm Hp. destruct p as [|a].
  { exists NULL. by rewrite take_null. }
  destruct Hp as [n Ha].
  destruct (map_Forall_lookup_1 _ m a n Hm Ha) as (Hnext & Hprev & Hup & Hfirst & Hlast).
  destruct s; simpl.
  - exists n.(parent). by rewrite (mxmlGetParent_live m a n).
  - exists n.(next). by rewrite (mxmlGetNextSibling_live m a n).
  - exists n.(prev). by rewrite (mxmlGetPrevSibling_live m a n).
  - destruct (decide (n.(type) = MXML_TYPE_ELEMENT)) as [Hn|Hn].
    + exists n.(child). by rewrite (mxmlGetFirstChild_element m a n).
    + exists NULL. by rewrite (mxmlGetFirstChild_other m a n).
  - destruct (decide (n.(type) = MXML_TYPE_ELEMENT)) as [Hn|Hn].
    + exists n.(last_child). by rewrite (mxmlGetLastChild_element m a n).
    + exists NULL. by rewrite (mxmlGetLastChild_other m a n).
Qed.

Lemma typed_get_closed K m p w :
  closed m → null_or_live m p → ∃ r, typed_get K m p w = Ok r.
Proof.
  intros Hm Hp. destruct p as [|a]; [by rewrite typed_get_null; eexists|].
  destruct Hp as [n Ha]. rewrite (typed_get_live K m a n w Ha).
  destruct (map_Forall_lookup_1 _ m a n Hm Ha) as (_ & _ & _ & Hfirst & _).
  repeat case_decide; try by eexists.
  destruct (n.(child)) as [|c]; [by eexists|].
  destruct Hfirst as [k ->]. case_decide; by eexists.
Qed.

(** X1.  Walking on from "no node" is safe: whatever structural getters
    are chained, starting from [NULL] every call is defined and the
    result is [NULL]. *)
Theorem walk_from_null (m : memory) (path : list step) :
  walk m path NULL = Ok NULL.
Proof.
  induction path as [|s path IH]; [done|].
  cbn [walk]. rewrite take_null. exact IH.
Qed.

(** X2.  In a store without dangling links, a chain of structural getters
    started at a null or live pointer never runs into undefined
    behaviour; it ends at a null or live pointer, on which every typed
    getter is defined. *)
Theorem walk_defined_in_closed_store (m : memory) (path : list step)
    (node : ptr address) :
  closed m → null_or_live m node →
  ∃ q, walk m path node = Ok q ∧ null_or_live m q ∧
       ∀ K w, ∃ r, typed_get K m q w = Ok r.
Proof.
  intros Hm. revert node.
  induction path as [|s path IH]; intros node Hnode.
  - exists node. repeat split; [done|]. intros K w. by apply typed_get_closed.
  - destruct (take_closed m s node Hm Hnode) as (q & Hq & Hlive).
    cbn [walk]. rewrite Hq. by apply IH.
Qed.

(** From the text word of <p>1 word</p>: back to the integer, up to <p>,
    down to its last child. *)
Lemma walk_defined_in_closed_store_witness :
  ∃ q, walk example_siblings [to_prev_sibling; to_parent; to_last_child]
         (Ref 3%positive) = Ok q ∧
       null_or_live example_siblings q ∧
       ∀ K w, ∃ r, typed_get K example_siblings q w = Ok r.
Proof.
  apply (walk_defined_in_closed_store example_siblings
           [to_prev_sibling; to_parent; to_last_child] (Ref 3%positive)).
  - exact closed_example_siblings.
  - apply (bool_decide_unpack _). vm_compute. exact I.
Defined.

(** X3.  The only undefined runs of a delegating getter: the node pointer
    dangles, or the node is an element (so not of the kind asked for)
    whose first-child pointer dangles.  In particular a node of the kind
    asked for is never looked through to its child. *)
Theorem typed_get_undefined_iff (K : kind) (m : memory) (a : address)
    (w : ptr int_cell) :
  typed_get K m (Ref a) w = Undefined ↔
  m !! a = None ∨
  ∃ n c, m !! a = Some n ∧ n.(type) = MXML_TYPE_ELEMENT ∧
         n.(child) = Ref c ∧ m !! c = None.
Proof.
  destruct (m !! a) as [n|] eqn:Ha.
  - rewrite (typed_get_live K m a n w Ha). split.
    + repeat case_decide; try done.
      destruct (n.(child)) as [|c] eqn:Hc; [done|].
      destruct (m !! c) as [k|] eqn:Hk; [by case_decide|].
      intros _. right. by exists n, c.
    + intros [?|(n' & c & [= <-] & Hn & Hc & Hk)]; [done|].
      rewrite decide_False by (rewrite Hn; apply not_eq_sym, kind_type_not_element).
      rewrite decide_True by done. by rewrite Hc, Hk.
  - rewrite (typed_get_dangling K m a w Ha). split; [by left|done].
Qed.

(** X4.  A delegating getter reads the node and, for an element, its
    first child, and nothing else: two stores that agree there give the
    same result, defined or not. *)
Theorem typed_get_reads_node_and_first_child (K : kind) (m m' : memory)
    (a : address) (n : mxml_node_t) (w : ptr int_cell) :
  m !! a = Some n → m' !! a = Some n →
  (∀ c, n.(type) = MXML_TYPE_ELEMENT → n.(child) = Ref c → m' !! c = m !! c) →
  typed_get K m' (Ref a) w = typed_get K m (Ref a) w.
Proof.
  intros Ha Ha' Hchild.
  rewrite (typed_get_live K m a n w Ha), (typed_get_live K m' a n w Ha').
  repeat case_decide; try done.
  destruct (n.(child)) as [|c] eqn:Hc; [done|].
  by rewrite (Hchild c).
Qed.

(** Deleting the grandchild 7 of <a><b>7</b></a> changes nothing for <a>. *)
Lemma typed_get_reads_node_and_first_child_witness :
  typed_get KInteger (delete 7%positive example_tree) (Ref 5%positive) NULL
  = typed_get KInteger example_tree (Ref 5%positive) NULL.
Proof.
  apply (typed_get_reads_node_and_first_child KInteger example_tree
           (delete 7%positive example_tree) 5%positive
           (with_links (element_node "a") NULL (Ref 6%positive) (Ref 6%positive)) NULL).
  - reflexivity.
  - reflexivity.
  - intros c _ [= <-]. reflexivity.
Defined.

(** X5.  The accessors that do not delegate read the one node they are
    given: two stores that hold the same thing at that address give the
    same result, defined or not. *)
Theorem node_accessors_read_one_node (m m' : memory) (a : address) :
  m' !! a = m !! a →
  mxmlGetCDATA m' (Ref a) = mxmlGetCDATA m (Ref a) ∧
  mxmlGetElement m' (Ref a) = mxmlGetElement m (Ref a) ∧
  mxmlGetFirstChild m' (Ref a) = mxmlGetFirstChild m (Ref a) ∧
  mxmlGetLastChild m' (Ref a) = mxmlGetLastChild m (Ref a) ∧
  mxmlGetNextSibling m' (Ref a) = mxmlGetNextSibling m (Ref a) ∧
  mxmlGetParent m' (Ref a) = mxmlGetParent m (Ref a) ∧
  mxmlGetPrevSibling m' (Ref a) = mxmlGetPrevSibling m (Ref a) ∧
  mxmlGetType m' (Ref a) = mxmlGetType m (Ref a) ∧
  mxmlGetUserData m' (Ref a) = mxmlGetUserData m (Ref a).
Proof.
  intros Ha.
  assert (deref m' (Ref a) = deref m (Ref a)) as Hd by (simpl; by rewrite Ha).
  unfold mxmlGetCDATA, mxmlGetElement, mxmlGetFirstChild, mxmlGetLastChild,
    mxmlGetNextSibling, mxmlGetParent, mxmlGetPrevSibling, mxmlGetType,
    mxmlGetUserData.
  rewrite Hd. done.
Qed.

(** Deleting the child of <foo>42</foo> changes nothing for what <foo>
    itself says: its name, and the pointer to the child. *)
Lemma node_accessors_read_one_node_witness :
  mxmlGetElement (delete 2%positive example_tree) (Ref 1%positive)
    = Ok (Ref "foo"%string) ∧
  mxmlGetFirstChild (delete 2%positive example_tree) (Ref 1%positive)
    = Ok (Ref 2%positive).
Proof.
  assert (delete 2%positive example_tree !! 1%positive = example_tree !! 1%positive)
    as Hsame by reflexivity.
  destruct (node_accessors_read_one_node example_tree
              (delete 2%positive example_tree) 1%positive Hsame)
    as (_ & Hname & Hfirst & _).
  split; [exact (eq_trans Hname eq_refl) | exact (eq_trans Hfirst eq_refl)].
Defined.

(** X6.  The payload kinds exclude each other on a leaf: when
    [mxmlGetType] reports the kind [K], the getter for [K] returns the
    node's payload and the getter for every other kind its default. *)
Theorem kinds_exclude_each_other (K K' : kind) (m : memory) (a : address)
    (w : ptr int_cell) :
  mxmlGetType m (Ref a) = Ok (kind_type K) → K' ≠ K →
  typed_get K' m (Ref a) w = Ok (absent_marker K' w) ∧
  ∃ n, m !! a = Some n ∧ typed_get K m (Ref a) w = Ok (stored K n w).
Proof.
  intros Ht HK.
  destruct (m !! a) as [n|] eqn:Ha;
    [|by unfold mxmlGetType in Ht; cbn [is_null] in Ht;
         rewrite (deref_dangling m a Ha) in Ht].
  rewrite (mxmlGetType_live m a n Ha) in Ht. injection Ht as Hn.
  split.
  - apply (typed_get_mismatch K' m a n w Ha).
    + rewrite Hn. intros E. by apply HK, eq_sym, kind_type_inj.
    + intros He. rewrite Hn in He. by apply kind_type_not_element in He.
  - exists n. split; [done|]. by apply typed_get_own.
Qed.

Lemma kinds_exclude_each_other_witness :
  typed_get KInteger example_tree (Ref 4%positive) NULL = Ok (an_integer 0) ∧
  ∃ n, example_tree !! 4%positive = Some n ∧
       typed_get KText example_tree (Ref 4%positive) NULL = Ok (stored KText n NULL).
Proof.
  apply (kinds_exclude_each_other KText KInteger example_tree 4%positive NULL).
  - reflexivity.
  - discriminate.
Defined.

(** X7.  A result other than the default is a payload that exists: it is
    stored in the node itself, which then has the kind asked for, or in
    the first child of that kind of an element. *)
Theorem result_comes_from_node_or_first_child (K : kind) (m : memory)
    (node : ptr address) (w : ptr int_cell) (r : payload) :
  typed_get K m node w = Ok r → r ≠ absent_marker K w →
  ∃ a n, node = Ref a ∧ m !! a = Some n ∧
    ((n.(type) = kind_type K ∧ r = stored K n w) ∨
     (n.(type) = MXML_TYPE_ELEMENT ∧
      ∃ c k, n.(child) = Ref c ∧ m !! c = Some k ∧
             k.(type) = kind_type K ∧ r = stored K k w)).
Proof.
  intros Hr Hne. destruct node as [|a].
  { rewrite typed_get_null in Hr. congruence. }
  destruct (m !! a) as [n|] eqn:Ha;
    [|by rewrite (typed_get_dangling K m a w Ha) in Hr].
  exists a, n. split; [done|]. split; [done|].
  rewrite (typed_get_live K m a n w Ha) in Hr.
  destruct (decide (n.(type) = kind_type K)) as [Hn|Hn];
    [left; split; congruence|].
  destruct (decide (n.(type) = MXML_TYPE_ELEMENT)) as [He|He]; [|congruence].
  destruct (n.(child)) as [|c] eqn:Hc; [congruence|].
  destruct (m !! c) as [k|] eqn:Hk; [|done].
  destruct (decide (k.(type) = kind_type K)) as [Hkt|Hkt]; [|congruence].
  right. split; [done|]. exists c, k. repeat split; congruence.
Qed.

Lemma result_comes_from_node_or_first_child_witness :
  ∃ a n, Ref 1%positive = Ref a ∧ example_tree !! a = Some n ∧
    ((n.(type) = MXML_TYPE_INTEGER ∧ an_integer 42 = stored KInteger n NULL) ∨
     (n.(type) = MXML_TYPE_ELEMENT ∧
      ∃ c k, n.(child) = Ref c ∧ example_tree !! c = Some k ∧
             k.(type) = MXML_TYPE_INTEGER ∧ an_integer 42 = stored KInteger k NULL)).
Proof.
  apply (result_comes_from_node_or_first_child KInteger example_tree
           (Ref 1%positive) NULL (an_integer 42)).
  - reflexivity.
  - discriminate.
Defined.

Lemma mxmlGetElement_inv m node s :
  mxmlGetElement m node = Ok (Ref s) →
  ∃ a n, node = Ref a ∧ m !! a = Some n ∧
         n.(type) = MXML_TYPE_ELEMENT ∧ n.(value).(element).(name) = Ref s.
Proof.
  destruct node as [|a]; [discriminate|].
  destruct (m !! a) as [n|] eqn:Ha;
    [|by unfold mxmlGetElement, orelse; cbn [is_null mbind result_bind];
         rewrite (deref_dangling m a Ha)].
  destruct (decide (n.(type) = MXML_TYPE_ELEMENT)) as [Hn|Hn].
  - rewrite (mxmlGetElement_element m a n Ha Hn). intros [= Hname]. by exists a, n.
  - by rewrite (mxmlGetElement_other m a n Ha Hn).
Qed.

Lemma length_append_marker p r :
  String.length (String.append p r) = (String.length p + String.length r)%nat.
Proof.
  induction p as [|c p IH]; [reflexivity|].
  change (S (String.length (String.append p r))
          = S (String.length p + String.length r)).
  by rewrite IH.
Qed.

(** X8.  The two views of a CDATA element agree: [mxmlGetCDATA] returns
    [content] exactly when [mxmlGetElement] returns the marker followed
    by [content]. *)
Theorem cdata_is_element_name_after_marker (m : memory) (node : ptr address)
    (content : string) :
  mxmlGetCDATA m node = Ok (Ref content) ↔
  mxmlGetElement m node = Ok (Ref (String.append "![CDATA[" content)).
Proof.
  split.
  - intros (a & n & -> & Ha & Hn & Hname)%mxmlGetCDATA_inv.
    by rewrite (mxmlGetElement_element m a n Ha Hn), Hname.
  - intros (a & n & -> & Ha & Hn & Hname)%mxmlGetElement_inv.
    by apply (mxmlGetCDATA_marker m a n).
Qed.

(** X9.  Short names are safe: on an element whose name has fewer than
    eight characters the comparison stops at the terminator and the
    result is [NULL]; and whenever a string is returned it is exactly
    eight characters shorter than the name. *)
Theorem cdata_name_length (m : memory) (a : address) (n : mxml_node_t) (s : string) :
  m !! a = Some n → n.(type) = MXML_TYPE_ELEMENT →
  n.(value).(element).(name) = Ref s →
  ((String.length s < 8)%nat → mxmlGetCDATA m (Ref a) = Ok NULL) ∧
  (∀ content, mxmlGetCDATA m (Ref a) = Ok (Ref content) →
              String.length s = (8 + String.length content)%nat).
Proof.
  intros Ha Hn Hname. split.
  - intros Hshort. apply (mxmlGetCDATA_other_name m a n s Ha Hn Hname).
    intros content ->. rewrite length_append_marker in Hshort.
    simpl in Hshort. lia.
  - intros content (b & k & [= <-] & Hb & _ & Hk)%mxmlGetCDATA_inv.
    assert (k = n) as -> by congruence.
    rewrite Hname in Hk. injection Hk as ->.
    by rewrite length_append_marker.
Qed.

(** <foo> has a three-character name; the CDATA element at 3 has fifteen
    characters, seven of them content. *)
Lemma cdata_name_length_witness :
  mxmlGetCDATA example_tree (Ref 1%positive) = Ok NULL ∧
  String.length "![CDATA[hello]]" = (8 + String.length "hello]]")%nat.
Proof.
  split.
  - apply (cdata_name_length example_tree 1%positive
             (with_links (element_node "foo") NULL (Ref 2%positive) (Ref 2%positive))
             "foo" eq_refl eq_refl eq_refl).
    simpl. lia.
  - apply (cdata_name_length example_tree 3%positive
             (element_node "![CDATA[hello]]") "![CDATA[hello]]"
             eq_refl eq_refl eq_refl).
    reflexivity.
Defined.

(** X10.  Delegation is the getter applied to [mxmlGetFirstChild]: on an
    element whose first child, if it is live, is not itself an element,
    the getter for [K] gives what it gives on the pointer
    [mxmlGetFirstChild] returns; this includes the childless element and
    the dangling child. *)
Theorem delegation_is_getter_of_first_child (K : kind) (m : memory) (e : address)
    (n : mxml_node_t) (w : ptr int_cell) :
  m !! e = Some n → n.(type) = MXML_TYPE_ELEMENT →
  (∀ c k, n.(child) = Ref c → m !! c = Some k → k.(type) ≠ MXML_TYPE_ELEMENT) →
  typed_get K m (Ref e) w = (c ← mxmlGetFirstChild m (Ref e); typed_get K m c w).
Proof.
  intros He Hn Hleaf.
  rewrite (mxmlGetFirstChild_element m e n He Hn). cbn [mbind result_bind].
  rewrite (typed_get_live K m e n w He).
  rewrite decide_False by (rewrite Hn; apply not_eq_sym, kind_type_not_element).
  rewrite decide_True by done.
  destruct (n.(child)) as [|c] eqn:Hc; [by rewrite typed_get_null|].
  destruct (m !! c) as [k|] eqn:Hk; [|by rewrite (typed_get_dangling K m c w Hk)].
  rewrite (typed_get_live K m c k w Hk).
  case_decide; [done|].
  by rewrite decide_False by (by apply (Hleaf c k)).
Qed.

Lemma delegation_is_getter_of_first_child_witness :
  typed_get KInteger example_tree (Ref 1%positive) NULL
  = (c ← mxmlGetFirstChild example_tree (Ref 1%positive);
     typed_get KInteger example_tree c NULL).
Proof.
  apply (delegation_is_getter_of_first_child KInteger example_tree 1%positive
           (with_links (element_node "foo") NULL (Ref 2%positive) (Ref 2%positive))
           NULL eq_refl eq_refl).
  intros c k [= <-] [= <-]. discriminate.
Defined.

(** X11.  A stored default cannot be told from "no node" by the getter:
    a node of kind [K] whose payload equals the default reads exactly as
    [NULL] does, and only [mxmlGetType] tells them apart. *)
Theorem stored_default_reads_as_absent (K : kind) (m : memory) (a : address)
    (n : mxml_node_t) (w : ptr int_cell) :
  m !! a = Some n → n.(type) = kind_type K →
  stored K n w = absent_marker K w →
  typed_get K m (Ref a) w = typed_get K m NULL w ∧
  mxmlGetType m (Ref a) ≠ mxmlGetType m NULL.
Proof.
  intros Ha Hn Hdefault. split.
  - by rewrite (typed_get_own K m a n w Ha Hn), typed_get_null, Hdefault.
  - rewrite (mxmlGetType_live m a n Ha), Hn. by destruct K.
Qed.

Lemma stored_default_reads_as_absent_witness :
  typed_get KInteger (<[1%positive := integer_node 0]> ∅) (Ref 1%positive) NULL
    = typed_get KInteger (<[1%positive := integer_node 0]> ∅) NULL NULL ∧
  mxmlGetType (<[1%positive := integer_node 0]> ∅) (Ref 1%positive)
    ≠ mxmlGetType (<[1%positive := integer_node 0]> ∅) NULL.
Proof.
  apply (stored_default_reads_as_absent KInteger (<[1%positive := integer_node 0]> ∅)
           1%positive (integer_node 0) NULL); reflexivity.
Defined.

(** X12.  Next then previous: from a live node, [mxmlGetPrevSibling] of
    [mxmlGetNextSibling] is [NULL] at the end of the list and otherwise
    the [prev] link of the next node, hence the node itself when the two
    links mirror each other; the node's type plays no part. *)
Theorem next_then_prev (m : memory) (a : address) (n : mxml_node_t) :
  m !! a = Some n →
  (n.(next) = NULL →
   walk m [to_next_sibling; to_prev_sibling] (Ref a) = Ok NULL) ∧
  (∀ b k, n.(next) = Ref b → m !! b = Some k →
          walk m [to_next_sibling; to_prev_sibling] (Ref a) = Ok k.(prev)) ∧
  (∀ b k, n.(next) = Ref b → m !! b = Some k → k.(prev) = Ref a →
          walk m [to_next_sibling; to_prev_sibling] (Ref a) = Ok (Ref a)).
Proof.
  intros Ha. cbn [walk take].
  rewrite (mxmlGetNextSibling_live m a n Ha). cbn [mbind result_bind].
  split; [|split].
  - by intros ->.
  - intros b k -> Hb. by rewrite (mxmlGetPrevSibling_live m b k Hb).
  - intros b k -> Hb Hprev. by rewrite (mxmlGetPrevSibling_live m b k Hb), Hprev.
Qed.

Lemma next_then_prev_witness :
  walk example_siblings [to_next_sibling; to_prev_sibling] (Ref 2%positive)
    = Ok (Ref 2%positive) ∧
  walk example_siblings [to_next_sibling; to_prev_sibling] (Ref 3%positive)
    = Ok NULL.
Proof.
  destruct (next_then_prev example_siblings 2%positive
              (with_siblings (with_links (integer_node 1) (Ref 1%positive) NULL NULL)
                 NULL (Ref 3%positive)) eq_refl)
    as (_ & _ & Hback).
  destruct (next_then_prev example_siblings 3%positive
              (with_siblings (with_links (text_node 1 "word") (Ref 1%positive) NULL NULL)
                 (Ref 2%positive) NULL) eq_refl)
    as (Hend & _).
  split.
  - apply (Hback 3%positive
             (with_siblings (with_links (text_node 1 "word") (Ref 1%positive) NULL NULL)
                (Ref 2%positive) NULL)); reflexivity.
  - apply Hend. reflexivity.
Defined.

(** X13.  Down then up: when the first child of a live node points back
    to it as parent, [mxmlGetParent] of [mxmlGetFirstChild] returns the
    node if it is an element; on a node of any other type
    [mxmlGetFirstChild] hides the child and the same chain ends in
    [NULL]. *)
Theorem first_child_then_parent (m : memory) (a c : address) (n k : mxml_node_t) :
  m !! a = Some n → n.(child) = Ref c → m !! c = Some k → k.(parent) = Ref a →
  (n.(type) = MXML_TYPE_ELEMENT →
   walk m [to_first_child; to_parent] (Ref a) = Ok (Ref a)) ∧
  (n.(type) ≠ MXML_TYPE_ELEMENT →
   walk m [to_first_child; to_parent] (Ref a) = Ok NULL).
Proof.
  intros Ha Hc Hk Hup. cbn [walk take]. split; intros Hn.
  - rewrite (mxmlGetFirstChild_element m a n Ha Hn), Hc. cbn [mbind result_bind].
    by rewrite (mxmlGetParent_live m c k Hk), Hup.
  - by rewrite (mxmlGetFirstChild_other m a n Ha Hn).
Qed.

Lemma first_child_then_parent_witness :
  walk example_siblings [to_first_child; to_parent] (Ref 1%positive)
    = Ok (Ref 1%positive).
Proof.
  apply (first_child_then_parent example_siblings 1%positive 2%positive
           (with_links (element_node "p") NULL (Ref 2%positive) (Ref 3%positive))
           (with_siblings (with_links (integer_node 1) (Ref 1%positive) NULL NULL)
              NULL (Ref 3%positive))
           eq_refl eq_refl eq_refl eq_refl).
  reflexivity.
Defined.
